(** * aws-gate: resolving an identifier to a running EC2 instance

    A shallow embedding of [aws_gate/query.py] and the properties of its
    instance resolver.

    The module has one public entry point, [query_instance], which
    classifies a user-supplied string and sends at most one filtered
    "describe instances" query through an EC2 resource handle.  Three things
    live outside the repository and are treated accordingly:

    - Python's [str] methods ([startswith], [endswith], [count], [split]) are
      written out below on [string];
    - the EC2 handle is a record holding the answer of
      [list(ec2.instances.filter(Filters=...))] for every filter list;
    - the [ipaddress] standard module is a parameter of the classifier
      (class [IPAddressModule]), so that what is proved holds for whatever
      that module parses and calls private.

    Computations live in a small monad that carries the outcome (a value or
    a raised exception) together with the list of queries sent to the
    provider, so that "no network call" and "the filters actually sent" are
    statements about that list.  Calls to [logger.debug] are not modelled. *)

From stdpp Require Import gmap strings.
From Stdlib Require Import String Ascii List Bool Arith Lia.
Import ListNotations.

Local Open Scope string_scope.
Local Open Scope list_scope.

(** ** Python strings *)

Module PyStr.

(** [s.startswith(p)]. *)
Definition startswith (s p : string) : bool := String.prefix p s.

(** [s.endswith(suf)]: some tail of [s] is [suf]. *)
Fixpoint endswith (s suf : string) : bool :=
  if String.eqb s suf then true
  else match s with
       | EmptyString => false
       | String _ r => endswith r suf
       end.

(** [s.count(c)] for a one-character [c]. *)
Fixpoint count (s : string) (c : ascii) : nat :=
  match s with
  | EmptyString => 0
  | String a r => (if Ascii.eqb a c then 1 else 0) + count r c
  end.

(** [s.split(c)] for a one-character separator [c]; never empty, and
    [EmptyString] splits to one empty piece. *)
Fixpoint split (s : string) (c : ascii) : list string :=
  match s with
  | EmptyString => [EmptyString]
  | String a r =>
      if Ascii.eqb a c then EmptyString :: split r c
      else match split r c with
           | h :: t => String a h :: t
           | [] => [String a EmptyString]
           end
  end.

End PyStr.

(** ** Exceptions, outcomes and the query trace *)

(** The exception classes that occur.  [ClientError] is
    [botocore.exceptions.ClientError]; [BotoCoreError] stands for the other
    family of botocore exceptions (its argument is the class name, such as
    EndpointConnectionError or NoCredentialsError), which does not derive
    from [ClientError]. *)
Inductive exn : Type :=
| ValueError (msg : string)
| AttributeError (msg : string)
| KeyError (key : string)
| AWSConnectionError
| ClientError (code : string)
| BotoCoreError (cls : string).

(** The test of the clause [except botocore.exceptions.ClientError]. *)
Definition isinstance_ClientError (e : exn) : bool :=
  match e with
  | ClientError _ => true
  | _ => false
  end.

Inductive outcome (A : Type) : Type :=
| Return (a : A)
| Raise (e : exn).
Arguments Return {A} a.
Arguments Raise {A} e.

(** One element of a [Filters=] argument: [{"Name": ..., "Values": [...]}]. *)
Record Filter : Type := mkFilter { Name : string; Values : list string }.

(** An enumerated instance; [instance_id] may be [None] or empty. *)
Record Instance : Type := mkInstance { instance_id : option string }.

(** The handle [ec2]: what materialising [ec2.instances.filter(Filters=fs)]
    gives for each [fs], a list of instances or a raised exception. *)
Record EC2 : Type := mkEC2 { instances_filter : list Filter -> outcome (list Instance) }.

(** The queries sent to the provider, oldest first. *)
Definition trace : Type := list (list Filter).

Definition M (A : Type) : Type := (outcome A * trace)%type.

Definition ret {A} (a : A) : M A := (Return a, []).

Definition raise {A} (e : exn) : M A := (Raise e, []).

Definition bind {A B} (m : M A) (f : A -> M B) : M B :=
  match m with
  | (Return a, t) => let (o, t') := f a in (o, t ++ t')
  | (Raise e, t) => (Raise e, t)
  end.

(** [try: m except: h], the handler seeing every exception. *)
Definition try_except {A} (m : M A) (h : exn -> M A) : M A :=
  match m with
  | (Raise e, t) => let (o, t') := h e in (o, t ++ t')
  | r => r
  end.

Notation "x <- c1 ;; c2" := (bind c1 (fun x => c2))
  (at level 20, c1 at level 99, c2 at level 200, only parsing).

Definition result {A} (m : M A) : outcome A := fst m.
Definition queries {A} (m : M A) : trace := snd m.

(** ** The query executor *)

(** Python truth value of an [instance_id]. *)
Definition truthy (v : option string) : bool :=
  match v with
  | Some s => negb (String.eqb s "")
  | None => false
  end.

(** [list(ec2.instances.filter(Filters=filters))]: one query, recorded in
    the trace.  On a [None] handle the attribute access fails first. *)
Definition list_instances (ec2 : option EC2) (filters : list Filter) : M (list Instance) :=
  match ec2 with
  | Some c => (instances_filter c filters, [filters])
  | None => raise (AttributeError "'NoneType' object has no attribute 'instances'")
  end.

Definition running_filter : Filter :=
  mkFilter "instance-state-name" ["running"].

(** The body of the [for] loop: a truthy identifier overwrites [ret]. *)
Definition select (r : option string) (i : Instance) : option string :=
  if truthy (instance_id i) then instance_id i else r.

(** Instances without a usable identifier. *)
Definition unidentified (l : list Instance) : Prop :=
  Forall (fun i => truthy (instance_id i) = false) l.

Definition _query_aws_api (filters : list Filter) (ec2 : option EC2) : M (option string) :=
  let ret0 : option string := None in
  let filters := filters ++ [running_filter] in
  try_except
    (ec2_instances <- list_instances ec2 filters ;;
     ret (fold_left select ec2_instances ret0))
    (fun e => if isinstance_ClientError e then raise AWSConnectionError else raise e).

Definition getinstanceidbyprivatednsname (name : string) (ec2 : option EC2) : M (option string) :=
  let filters := [mkFilter "private-dns-name" [name]] in
  _query_aws_api filters ec2.

Definition getinstanceidbydnsname (name : string) (ec2 : option EC2) : M (option string) :=
  let filters := [mkFilter "dns-name" [name]] in
  _query_aws_api filters ec2.

Definition getinstanceidbyprivateipaddress (name : string) (ec2 : option EC2) : M (option string) :=
  let filters := [mkFilter "private-ip-address" [name]] in
  _query_aws_api filters ec2.

Definition getinstanceidbyipaddress (name : string) (ec2 : option EC2) : M (option string) :=
  let filters := [mkFilter "ip-address" [name]] in
  _query_aws_api filters ec2.

(** [key, value = l]: a [ValueError] unless [l] has exactly two elements
    (the wording of the message plays no role below). *)
Definition unpack2 (l : list string) : M (string * string) :=
  match l with
  | [] => raise (ValueError "not enough values to unpack (expected 2, got 0)")
  | [_] => raise (ValueError "not enough values to unpack (expected 2, got 1)")
  | [key; value] => ret (key, value)
  | _ => raise (ValueError "too many values to unpack (expected 2)")
  end.

Definition getinstanceidbytag (name : string) (ec2 : option EC2) : M (option string) :=
  kv <- unpack2 (PyStr.split name ":") ;;
  let filters := [mkFilter ("tag:" ++ fst kv) [snd kv]] in
  _query_aws_api filters ec2.

Definition getinstanceidbyinstancename (name : string) (ec2 : option EC2) : M (option string) :=
  getinstanceidbytag ("Name:" ++ name) ec2.

Definition handler : Type := string -> option EC2 -> M (option string).

Definition func_dispatcher : gmap string handler :=
  {[ "dns-name" := getinstanceidbydnsname;
     "private-dns-name" := getinstanceidbyprivatednsname;
     "ip-address" := getinstanceidbyipaddress;
     "private-ip-address" := getinstanceidbyprivateipaddress;
     "tag" := getinstanceidbytag;
     "name" := getinstanceidbyinstancename ]}.

(** ** Classification and the top-level operation *)

(** What the resolver uses of the [ipaddress] module: [ip_address s] is the
    parsed address, or [None] where [ipaddress.ip_address(s)] raises
    [ValueError]; [is_private] is the property of that name on a parsed
    address. *)
Class IPAddressModule : Type := {
  address : Type;
  ip_address : string -> option address;
  is_private : address -> bool
}.

Section Resolver.

Context {ipaddress : IPAddressModule}.

Definition _is_valid_ip (ip : string) : bool :=
  match ip_address ip with
  | Some _ => true
  | None => false
  end.

(** The second call [ipaddress.ip_address(name)] of [query_instance]. *)
Definition ip_address_call (name : string) : M address :=
  match ip_address name with
  | Some a => ret a
  | None => raise (ValueError "does not appear to be an IPv4 or IPv6 address")
  end.

(** The assignment of [identifier_type] in [query_instance], i.e. the
    statement [if _is_valid_ip(name): ... else: ...]. *)
Definition identifier_type_of (name : string) : M string :=
  if _is_valid_ip name then
    a <- ip_address_call name ;;
    if negb (is_private a) then ret "ip-address"
    else ret "private-ip-address"
  else
    if PyStr.endswith name "compute.amazonaws.com" then ret "dns-name"
    else if PyStr.endswith name "compute.internal" then ret "private-dns-name"
    else if Nat.eqb (PyStr.count name ":") 1 then ret "tag"
    else ret "name".

(** [func_dispatcher[identifier_type](name=name, ec2=ec2)]. *)
Definition dispatch (identifier_type name : string) (ec2 : option EC2) : M (option string) :=
  match func_dispatcher !! identifier_type with
  | Some f => f name ec2
  | None => raise (KeyError identifier_type)
  end.

Definition query_instance (name : string) (ec2 : option EC2) : M (option string) :=
  match ec2 with
  | None => raise (ValueError "EC2 client is not initialized")
  | Some _ =>
      if PyStr.startswith name "id-" || PyStr.startswith name "i-" then ret (Some name)
      else
        identifier_type <- identifier_type_of name ;;
        dispatch identifier_type name ec2
  end.

End Resolver.

(** ** A small instance of the address parameters

    Dotted-quad IPv4 with the three RFC 1918 blocks as the private ranges.
    It is far from the whole of [ipaddress] (no IPv6, fewer private ranges)
    and serves only to run the resolver on concrete inputs. *)

Module DottedQuad.

Definition digit (c : ascii) : option nat :=
  let n := nat_of_ascii c in
  if Nat.leb 48 n && Nat.leb n 57 then Some (n - 48) else None.

Fixpoint decimal (s : string) (acc : nat) : option nat :=
  match s with
  | EmptyString => Some acc
  | String c r =>
      match digit c with
      | Some d => decimal r (10 * acc + d)
      | None => None
      end
  end.

Definition octet (s : string) : option nat :=
  match s with
  | EmptyString => None
  | String "0" (String _ _) => None
  | _ =>
      if Nat.leb (String.length s) 3 then
        match decimal s 0 with
        | Some n => if Nat.leb n 255 then Some n else None
        | None => None
        end
      else None
  end.

Definition quad : Type := (nat * nat * nat * nat)%type.

Definition parse (s : string) : option quad :=
  match List.map octet (PyStr.split s ".") with
  | [Some a; Some b; Some c; Some d] => Some (a, b, c, d)
  | _ => None
  end.

Definition rfc1918 (x : quad) : bool :=
  let '(a, b, _, _) := x in
  Nat.eqb a 10
  || (Nat.eqb a 172 && Nat.leb 16 b && Nat.leb b 31)
  || (Nat.eqb a 192 && Nat.eqb b 168).

Definition ipaddress : IPAddressModule :=
  {| address := quad; ip_address := parse; is_private := rfc1918 |}.

Definition query_instance : string -> option EC2 -> M (option string) :=
  @query_instance ipaddress.

Definition identifier_type_of : string -> M string :=
  @identifier_type_of ipaddress.

End DottedQuad.

(** ** Two handles to run the resolver against *)

(** A handle that answers every query with instances of the given
    identifiers, in that order. *)
Definition answering (ids : list (option string)) : EC2 :=
  mkEC2 (fun _ => Return (List.map mkInstance ids)).

(** A handle whose every query raises the given exception. *)
Definition failing (e : exn) : EC2 := mkEC2 (fun _ => Raise e).


(** ** Facts about the string operations *)

Module PyStrFacts.
Import PyStr.

Lemma eqb_String_self (a : ascii) (s : string) : String.eqb s (String a s) = false.
Proof.
  apply String.eqb_neq. intros H.
  apply (f_equal String.length) in H. simpl in H. lia.
Qed.

Lemma endswith_unfold (s suf : string) :
  endswith s suf =
  if String.eqb s suf then true
  else match s with
       | EmptyString => false
       | String _ r => endswith r suf
       end.
Proof. now destruct s. Qed.

(** [endswith] is "ends with": [s] is some prefix followed by [suf]. *)
Lemma endswith_spec (s suf : string) :
  endswith s suf = true <-> exists p, s = (p ++ suf)%string.
Proof.
  split.
  - induction s as [|a r IH]; rewrite endswith_unfold.
    + destruct (String.eqb "" suf) eqn:E; [|discriminate].
      intros _. apply String.eqb_eq in E. exists ""%string. now subst.
    + destruct (String.eqb (String a r) suf) eqn:E.
      * intros _. apply String.eqb_eq in E. exists ""%string. now subst.
      * intros H. destruct (IH H) as [p ->]. now exists (String a p).
  - intros [p ->]. induction p as [|a p IH].
    + rewrite endswith_unfold. cbn [String.append].
      now rewrite String.eqb_refl.
    + change (String a p ++ suf)%string with (String a (p ++ suf)).
      rewrite endswith_unfold, IH. now destruct (String.eqb _ _).
Qed.

Lemma startswith_spec (s p : string) :
  startswith s p = true <-> exists r, s = (p ++ r)%string.
Proof.
  unfold startswith. split.
  - revert s. induction p as [|a p IH]; intros s H.
    + now exists s.
    + destruct s as [|b s]; simpl in H; [discriminate|].
      destruct (ascii_dec a b) as [->|]; [|discriminate].
      destruct (IH _ H) as [r ->]. now exists r.
  - intros [r ->]. induction p as [|a p IH]; simpl.
    + now destruct r.
    + now destruct (ascii_dec a a).
Qed.

Lemma split_nonempty (s : string) (c : ascii) : split s c <> [].
Proof.
  destruct s as [|a r]; simpl; [discriminate|].
  destruct (Ascii.eqb a c); [discriminate|].
  now destruct (split r c).
Qed.

(** One more piece than separators. *)
Lemma split_length (s : string) (c : ascii) :
  List.length (split s c) = S (count s c).
Proof.
  induction s as [|a r IH]; simpl; [reflexivity|].
  destruct (Ascii.eqb a c); simpl; [now rewrite IH|].
  destruct (split r c); simpl in *; lia.
Qed.

Lemma split_count_0 (s : string) (c : ascii) :
  count s c = 0 -> split s c = [s].
Proof.
  induction s as [|a r IH]; simpl; [reflexivity|].
  destruct (Ascii.eqb a c); simpl; [discriminate|].
  intros H. now rewrite (IH H).
Qed.

(** Exactly one separator: two pieces, the text before and the text after
    it. *)
Lemma split_count_1 (s : string) (c : ascii) :
  count s c = 1 ->
  exists key value,
    split s c = [key; value]
    /\ s = (key ++ String c value)%string
    /\ count key c = 0 /\ count value c = 0.
Proof.
  induction s as [|a r IH]; simpl; [discriminate|].
  destruct (Ascii.eqb a c) eqn:E; simpl.
  - intros H. apply Ascii.eqb_eq in E. subst a.
    injection H as H. exists ""%string, r.
    rewrite (split_count_0 _ _ H). repeat split; auto.
  - intros H. destruct (IH H) as (k & v & Hs & -> & Hk & Hv).
    rewrite Hs. exists (String a k), v. simpl. rewrite E.
    repeat split; auto.
Qed.

Lemma count_app (s t : string) (c : ascii) :
  count (s ++ t) c = count s c + count t c.
Proof. induction s as [|a r IH]; simpl; [reflexivity|]. rewrite IH. lia. Qed.

(** The formatted string ["Name:{}".format(name)] splits after [Name]. *)
Lemma split_Name (name : string) :
  split ("Name:" ++ name) ":" = "Name"%string :: split name ":".
Proof. reflexivity. Qed.

(** The two DNS suffixes exclude each other. *)
Lemma endswith_public_not_internal (s : string) :
  endswith s "compute.amazonaws.com" = true ->
  endswith s "compute.internal" = false.
Proof.
  induction s as [|a r IH]; [discriminate|].
  rewrite !(endswith_unfold (String a r)).
  destruct (String.eqb (String a r) "compute.amazonaws.com") eqn:E.
  - intros _. apply String.eqb_eq in E. injection E as -> ->. reflexivity.
  - intros H. rewrite (IH H).
    destruct (String.eqb (String a r) "compute.internal") eqn:E'; [|reflexivity].
    apply String.eqb_eq in E'. injection E' as -> ->. discriminate H.
Qed.

End PyStrFacts.

(** ** Facts about the monad and the query executor *)

Lemma bind_ret_l {A B} (a : A) (f : A -> M B) : bind (ret a) f = f a.
Proof. unfold bind, ret. now destruct (f a). Qed.

Lemma bind_raise_l {A B} (e : exn) (f : A -> M B) : bind (raise e) f = raise e.
Proof. reflexivity. Qed.

(** With a handle, the executor sends exactly one query, the given filters
    followed by the running-state filter; a [ClientError] is replaced, any
    other exception passes through. *)
Lemma query_aws_api_run (fs : list Filter) (c : EC2) :
  _query_aws_api fs (Some c) =
  match instances_filter c (fs ++ [running_filter]) with
  | Return l => (Return (fold_left select l None), [fs ++ [running_filter]])
  | Raise e =>
      (Raise (if isinstance_ClientError e then AWSConnectionError else e),
       [fs ++ [running_filter]])
  end.
Proof.
  unfold _query_aws_api, list_instances, try_except, bind, ret, raise.
  destruct (instances_filter c (fs ++ [running_filter])) as [l|e]; [reflexivity|].
  now destruct (isinstance_ClientError e).
Qed.

Lemma query_aws_api_None (fs : list Filter) :
  _query_aws_api fs None =
  raise (AttributeError "'NoneType' object has no attribute 'instances'").
Proof. reflexivity. Qed.

Lemma query_aws_api_queries (fs : list Filter) (c : EC2) :
  queries (_query_aws_api fs (Some c)) = [fs ++ [running_filter]].
Proof.
  rewrite query_aws_api_run.
  now destruct (instances_filter c (fs ++ [running_filter])).
Qed.

Lemma select_fold_skip (l : list Instance) (r : option string) :
  unidentified l -> fold_left select l r = r.
Proof.
  intros H. revert r. induction H as [|i l Hi _ IH]; intros r; simpl; [reflexivity|].
  unfold select at 2. now rewrite Hi.
Qed.

Lemma select_fold_last (l1 l2 : list Instance) (i : Instance) (r : option string) :
  truthy (instance_id i) = true -> unidentified l2 ->
  fold_left select (l1 ++ i :: l2) r = instance_id i.
Proof.
  intros Hi H2. rewrite fold_left_app. simpl.
  rewrite (select_fold_skip _ _ H2). unfold select. now rewrite Hi.
Qed.

(** The loop either leaves [ret] as it was, every instance being skipped, or
    ends on the identifier of the last instance that has one. *)
Lemma select_fold_cases (l : list Instance) (r : option string) :
  (unidentified l /\ fold_left select l r = r)
  \/ (exists l1 i l2,
         l = l1 ++ i :: l2
         /\ truthy (instance_id i) = true
         /\ unidentified l2
         /\ fold_left select l r = instance_id i).
Proof.
  induction l as [|i l IH] using rev_ind.
  - left. split; [constructor | reflexivity].
  - destruct (truthy (instance_id i)) eqn:Hi.
    + right. exists l, i, []. repeat split; auto; [constructor|].
      apply select_fold_last; [assumption | constructor].
    + destruct IH as [[Hl Hr] | (l1 & j & l2 & -> & Hj & H2 & Hr)].
      * left. split.
        -- apply Forall_app. split; [assumption | now constructor].
        -- rewrite fold_left_app. simpl. unfold select at 1. now rewrite Hi.
      * right. exists l1, j, (l2 ++ [i]).
        assert (H2' : unidentified (l2 ++ [i])).
        { apply Forall_app. split; [assumption | now constructor]. }
        repeat split; auto.
        -- now rewrite <- app_assoc.
        -- rewrite <- app_assoc. simpl. now apply select_fold_last.
Qed.

Lemma truthy_not_empty (v : option string) :
  truthy v = true -> v <> None /\ v <> Some ""%string.
Proof.
  destruct v as [s|]; simpl; [|discriminate].
  intros H. split; [discriminate|]. intros [= ->]. discriminate H.
Qed.

(** The handlers of [func_dispatcher], as one query each. *)
Lemma getinstanceidbytag_one_colon (name : string) (ec2 : option EC2) :
  PyStr.count name ":" = 1 ->
  exists key value,
    name = (key ++ ":" ++ value)%string
    /\ PyStr.count key ":" = 0 /\ PyStr.count value ":" = 0
    /\ getinstanceidbytag name ec2 = _query_aws_api [mkFilter ("tag:" ++ key) [value]] ec2.
Proof.
  intros H. destruct (PyStrFacts.split_count_1 _ _ H) as (k & v & Hs & Hn & Hk & Hv).
  exists k, v. repeat split; auto.
  unfold getinstanceidbytag. rewrite Hs. unfold unpack2. now rewrite bind_ret_l.
Qed.

Lemma getinstanceidbyinstancename_no_colon (name : string) (ec2 : option EC2) :
  PyStr.count name ":" = 0 ->
  getinstanceidbyinstancename name ec2 = _query_aws_api [mkFilter "tag:Name" [name]] ec2.
Proof.
  intros H. unfold getinstanceidbyinstancename, getinstanceidbytag.
  rewrite PyStrFacts.split_Name, (PyStrFacts.split_count_0 _ _ H).
  unfold unpack2. now rewrite bind_ret_l.
Qed.

Lemma getinstanceidbyinstancename_colons (name : string) (ec2 : option EC2) :
  1 <= PyStr.count name ":" ->
  getinstanceidbyinstancename name ec2 =
  raise (ValueError "too many values to unpack (expected 2)").
Proof.
  intros H. unfold getinstanceidbyinstancename, getinstanceidbytag.
  rewrite PyStrFacts.split_Name.
  pose proof (PyStrFacts.split_length name ":") as Hl.
  destruct (PyStr.split name ":") as [|h [|h' t]]; simpl in Hl; try lia.
  reflexivity.
Qed.

(** Whatever the handle, a query that the executor sends is the given
    filters followed by the running-state filter. *)
Lemma query_aws_api_sent (fs : list Filter) (ec2 : option EC2) (q : list Filter) :
  In q (queries (_query_aws_api fs ec2)) -> q = fs ++ [running_filter].
Proof.
  destruct ec2 as [c|]; [|intros []].
  rewrite query_aws_api_queries. now intros [<- | []].
Qed.

(** Every handler of [func_dispatcher], called on its own, sends nothing
    but one kind-specific filter followed by the running-state filter. *)
Lemma handler_queries
    (kind : string) (f : handler) (name : string) (ec2 : option EC2) (q : list Filter) :
  func_dispatcher !! kind = Some f ->
  In q (queries (f name ec2)) ->
  exists flt, q = [flt; running_filter].
Proof.
  assert (Htag : forall n, In q (queries (getinstanceidbytag n ec2)) ->
                           exists flt, q = [flt; running_filter]).
  { intros n. unfold getinstanceidbytag.
    destruct (PyStr.split n ":") as [|k [|v [|? ?]]]; try (intros []).
    unfold unpack2. rewrite bind_ret_l. intros H.
    apply query_aws_api_sent in H. eexists. exact H. }
  unfold func_dispatcher. intros Hk.
  repeat (apply lookup_insert_Some in Hk as [[_ <-] | [_ Hk]];
          [try (intros H; apply query_aws_api_sent in H; eexists; exact H) | ]);
    [apply Htag | apply lookup_singleton_Some in Hk as [_ <-]; apply Htag].
Qed.

Lemma dispatch_lookup :
  func_dispatcher !! "dns-name"%string = Some getinstanceidbydnsname
  /\ func_dispatcher !! "private-dns-name"%string = Some getinstanceidbyprivatednsname
  /\ func_dispatcher !! "ip-address"%string = Some getinstanceidbyipaddress
  /\ func_dispatcher !! "private-ip-address"%string = Some getinstanceidbyprivateipaddress
  /\ func_dispatcher !! "tag"%string = Some getinstanceidbytag
  /\ func_dispatcher !! "name"%string = Some getinstanceidbyinstancename.
Proof. repeat split; reflexivity. Qed.

(** ** The resolver, for any implementation of the address parameters *)

Section ResolverFacts.

Context {ipaddress : IPAddressModule}.

Lemma query_instance_classified (name : string) (c : EC2) :
  PyStr.startswith name "id-" = false ->
  PyStr.startswith name "i-" = false ->
  query_instance name (Some c) =
  (identifier_type <- identifier_type_of name ;; dispatch identifier_type name (Some c)).
Proof. intros H1 H2. unfold query_instance. now rewrite H1, H2. Qed.

Lemma identifier_type_of_ip (name : string) (a : address) :
  ip_address name = Some a ->
  identifier_type_of name = ret (if is_private a then "private-ip-address" else "ip-address")%string.
Proof.
  intros H. unfold identifier_type_of, _is_valid_ip, ip_address_call.
  rewrite H, bind_ret_l. now destruct (is_private a).
Qed.

Lemma identifier_type_of_not_ip (name : string) :
  ip_address name = None ->
  identifier_type_of name =
  ret (if PyStr.endswith name "compute.amazonaws.com" then "dns-name"
       else if PyStr.endswith name "compute.internal" then "private-dns-name"
       else if Nat.eqb (PyStr.count name ":") 1 then "tag"
       else "name")%string.
Proof.
  intros H. unfold identifier_type_of, _is_valid_ip. rewrite H.
  now repeat match goal with |- context [if ?b then _ else _] => destruct b end.
Qed.

(** Classification never raises and always names a handler. *)
Lemma identifier_type_of_total (name : string) :
  exists k, identifier_type_of name = ret k /\ is_Some (func_dispatcher !! k).
Proof.
  destruct (ip_address name) as [a|] eqn:H.
  - rewrite (identifier_type_of_ip _ _ H).
    destruct (is_private a); eexists; (split; [reflexivity | now eexists]).
  - rewrite (identifier_type_of_not_ip _ H).
    repeat match goal with |- context [if ?b then _ else _] => destruct b end;
      eexists; (split; [reflexivity | now eexists]).
Qed.

(** What a run with a handle looks like: the name itself without a query,
    one run of the executor on a single kind-specific filter, or a
    [ValueError] without a query. *)
Lemma query_instance_shape (name : string) (c : EC2) :
  query_instance name (Some c) = (Return (Some name), [])
  \/ (exists f, query_instance name (Some c) = _query_aws_api [f] (Some c))
  \/ (exists msg, query_instance name (Some c) = (Raise (ValueError msg), [])).
Proof.
  destruct (PyStr.startswith name "id-" || PyStr.startswith name "i-") eqn:Hp.
  - left. unfold query_instance. now rewrite Hp.
  - right. apply orb_false_elim in Hp as [H1 H2].
    rewrite (query_instance_classified _ _ H1 H2).
    destruct (ip_address name) as [a|] eqn:H.
    + rewrite (identifier_type_of_ip _ _ H), bind_ret_l. left.
      destruct (is_private a); eexists; reflexivity.
    + rewrite (identifier_type_of_not_ip _ H), bind_ret_l.
      destruct (PyStr.endswith name "compute.amazonaws.com");
        [left; eexists; reflexivity|].
      destruct (PyStr.endswith name "compute.internal");
        [left; eexists; reflexivity|].
      destruct (Nat.eqb (PyStr.count name ":") 1) eqn:Hc.
      * apply Nat.eqb_eq in Hc. left.
        destruct (getinstanceidbytag_one_colon name (Some c) Hc)
          as (k & v & _ & _ & _ & Hq).
        eexists. exact Hq.
      * apply Nat.eqb_neq in Hc.
        change (dispatch "name" name (Some c))
          with (getinstanceidbyinstancename name (Some c)).
        destruct (PyStr.count name ":") as [|n] eqn:Hn.
        -- left. eexists. now apply getinstanceidbyinstancename_no_colon.
        -- right. eexists. apply getinstanceidbyinstancename_colons. lia.
Qed.

(** At most one query is sent, and a query that is sent decides the
    outcome. *)
Lemma query_instance_queries (name : string) (ec2 : option EC2) (q : list Filter) :
  In q (queries (query_instance name ec2)) ->
  exists c f,
    ec2 = Some c /\ q = [f; running_filter]
    /\ query_instance name ec2 = _query_aws_api [f] (Some c).
Proof.
  destruct ec2 as [c|]; [|intros []].
  destruct (query_instance_shape name c) as [E | [[f E] | [msg E]]]; rewrite E.
  - intros [].
  - rewrite query_aws_api_queries. intros [<- | []]. now exists c, f.
  - intros [].
Qed.

(** C1 (the code departs from the claim): a string that reaches the last
    branch is given the kind [name], but when it holds two or more colons
    the handler raises [ValueError] while unpacking the split of the
    formatted tag, and no query with [tag:Name] is sent. *)
Theorem name_with_colons_raises (name : string) (c : EC2) :
  PyStr.startswith name "id-" = false ->
  PyStr.startswith name "i-" = false ->
  ip_address name = None ->
  PyStr.endswith name "compute.amazonaws.com" = false ->
  PyStr.endswith name "compute.internal" = false ->
  2 <= PyStr.count name ":" ->
  identifier_type_of name = ret "name"%string
  /\ query_instance name (Some c) =
     (Raise (ValueError "too many values to unpack (expected 2)"), []).
Proof.
  intros H1 H2 Hip Hd1 Hd2 Hc.
  assert (Hk : identifier_type_of name = ret "name"%string).
  { rewrite (identifier_type_of_not_ip _ Hip), Hd1, Hd2.
    destruct (Nat.eqb_spec (PyStr.count name ":") 1); [lia | reflexivity]. }
  split; [exact Hk|].
  rewrite (query_instance_classified _ _ H1 H2), Hk, bind_ret_l.
  apply getinstanceidbyinstancename_colons. lia.
Qed.

(** The part of C1 that the code does satisfy: a string of the last branch
    without any colon is queried as [tag:Name]. *)
Lemma name_without_colon_query (name : string) (c : EC2) :
  PyStr.startswith name "id-" = false ->
  PyStr.startswith name "i-" = false ->
  ip_address name = None ->
  PyStr.endswith name "compute.amazonaws.com" = false ->
  PyStr.endswith name "compute.internal" = false ->
  PyStr.count name ":" = 0 ->
  identifier_type_of name = ret "name"%string
  /\ query_instance name (Some c) = _query_aws_api [mkFilter "tag:Name" [name]] (Some c)
  /\ queries (query_instance name (Some c)) =
     [[mkFilter "tag:Name" [name]; running_filter]].
Proof.
  intros H1 H2 Hip Hd1 Hd2 Hc.
  assert (Hk : identifier_type_of name = ret "name"%string).
  { now rewrite (identifier_type_of_not_ip _ Hip), Hd1, Hd2, Hc. }
  assert (Hr : query_instance name (Some c) =
               _query_aws_api [mkFilter "tag:Name" [name]] (Some c)).
  { rewrite (query_instance_classified _ _ H1 H2), Hk, bind_ret_l.
    now apply getinstanceidbyinstancename_no_colon. }
  repeat split; auto. rewrite Hr. apply query_aws_api_queries.
Qed.

(** C2 (amended): when the query that is sent raises an exception, the run
    ends with that one query in the trace and raises [AWSConnectionError]
    if the exception is a botocore [ClientError], and the exception itself
    otherwise. *)
Theorem provider_error_translation
    (name : string) (c : EC2) (q : list Filter) (e : exn) :
  In q (queries (query_instance name (Some c))) ->
  instances_filter c q = Raise e ->
  query_instance name (Some c) =
  (Raise (if isinstance_ClientError e then AWSConnectionError else e), [q]).
Proof.
  intros Hq He.
  destruct (query_instance_queries _ _ _ Hq) as (c' & f & [= <-] & -> & Hr).
  rewrite Hr, query_aws_api_run.
  change ([f] ++ [running_filter]) with [f; running_filter].
  now rewrite He.
Qed.

(** C3: every query that [query_instance] sends consists of one
    kind-specific filter followed by the filter
    [instance-state-name = ["running"]]. *)
Theorem running_filter_always_sent
    (name : string) (ec2 : option EC2) (q : list Filter) :
  In q (queries (query_instance name ec2)) ->
  In running_filter q /\ exists f, q = [f; running_filter].
Proof.
  intros Hq. destruct (query_instance_queries _ _ _ Hq) as (c & f & _ & -> & _).
  split; [right; now left | now exists f].
Qed.

(** C4: with a handle present, a string that starts with [i-] or [id-] is
    returned unchanged and no query is sent. *)
Theorem instance_id_passthrough (name : string) (c : EC2) :
  PyStr.startswith name "i-" = true \/ PyStr.startswith name "id-" = true ->
  query_instance name (Some c) = (Return (Some name), []).
Proof.
  intros H. unfold query_instance.
  destruct H as [H | H]; rewrite H; [|reflexivity].
  now rewrite orb_true_r.
Qed.

(** C5: without a handle, every string, instance identifiers included,
    ends in [ValueError] with no query sent, whatever the address
    parameters would answer. *)
Theorem missing_client_rejected (name : string) :
  query_instance name None = (Raise (ValueError "EC2 client is not initialized"), []).
Proof. reflexivity. Qed.

(** C7: a string that parses as an address is given the kind [ip-address]
    exactly when the address is not private and [private-ip-address]
    exactly when it is, and the query carries that attribute with the
    string as its value. *)
Theorem ip_classification (name : string) (a : address) (c : EC2) :
  PyStr.startswith name "id-" = false ->
  PyStr.startswith name "i-" = false ->
  ip_address name = Some a ->
  (identifier_type_of name = ret "ip-address"%string <-> is_private a = false)
  /\ (identifier_type_of name = ret "private-ip-address"%string <-> is_private a = true)
  /\ queries (query_instance name (Some c)) =
     [[mkFilter (if is_private a then "private-ip-address" else "ip-address") [name];
       running_filter]]
  /\ query_instance name (Some c) =
     _query_aws_api
       [mkFilter (if is_private a then "private-ip-address" else "ip-address") [name]]
       (Some c).
Proof.
  intros H1 H2 Hip.
  assert (Hr : query_instance name (Some c) =
               _query_aws_api
                 [mkFilter (if is_private a then "private-ip-address" else "ip-address")
                    [name]] (Some c)).
  { rewrite (query_instance_classified _ _ H1 H2), (identifier_type_of_ip _ _ Hip), bind_ret_l.
    now destruct (is_private a). }
  rewrite (identifier_type_of_ip _ _ Hip).
  repeat split; try (destruct (is_private a); (discriminate || reflexivity)); auto.
  rewrite Hr. apply query_aws_api_queries.
Qed.

(** C8: a string with exactly one colon that is neither an instance
    identifier, nor an address, nor a DNS name of either suffix is given
    the kind [tag]; the query carries the attribute [tag:] followed by the
    text before the colon, with the text after the colon as its value. *)
Theorem tag_classification (name : string) (c : EC2) :
  PyStr.startswith name "id-" = false ->
  PyStr.startswith name "i-" = false ->
  ip_address name = None ->
  PyStr.endswith name "compute.amazonaws.com" = false ->
  PyStr.endswith name "compute.internal" = false ->
  PyStr.count name ":" = 1 ->
  identifier_type_of name = ret "tag"%string
  /\ exists key value,
       name = (key ++ ":" ++ value)%string
       /\ PyStr.count key ":" = 0 /\ PyStr.count value ":" = 0
       /\ queries (query_instance name (Some c)) =
          [[mkFilter ("tag:" ++ key) [value]; running_filter]]
       /\ query_instance name (Some c) =
          _query_aws_api [mkFilter ("tag:" ++ key) [value]] (Some c).
Proof.
  intros H1 H2 Hip Hd1 Hd2 Hc.
  assert (Hk : identifier_type_of name = ret "tag"%string).
  { now rewrite (identifier_type_of_not_ip _ Hip), Hd1, Hd2, Hc. }
  split; [exact Hk|].
  destruct (getinstanceidbytag_one_colon name (Some c) Hc)
    as (k & v & Hn & Hck & Hcv & Hq).
  exists k, v.
  assert (Hr : query_instance name (Some c) =
               _query_aws_api [mkFilter ("tag:" ++ k) [v]] (Some c)).
  { rewrite (query_instance_classified _ _ H1 H2), Hk, bind_ret_l. exact Hq. }
  repeat split; auto. rewrite Hr. apply query_aws_api_queries.
Qed.

(** C9: for a string that is neither an instance identifier nor an
    address, the suffix [compute.amazonaws.com] gives the kind [dns-name]
    and the suffix [compute.internal] gives the kind [private-dns-name],
    each queried under the attribute of that name. *)
Theorem dns_classification (name : string) (c : EC2) :
  PyStr.startswith name "id-" = false ->
  PyStr.startswith name "i-" = false ->
  ip_address name = None ->
  (PyStr.endswith name "compute.amazonaws.com" = true ->
   identifier_type_of name = ret "dns-name"%string
   /\ queries (query_instance name (Some c)) = [[mkFilter "dns-name" [name]; running_filter]]
   /\ query_instance name (Some c) = _query_aws_api [mkFilter "dns-name" [name]] (Some c))
  /\ (PyStr.endswith name "compute.internal" = true ->
      identifier_type_of name = ret "private-dns-name"%string
      /\ queries (query_instance name (Some c)) =
         [[mkFilter "private-dns-name" [name]; running_filter]]
      /\ query_instance name (Some c) =
         _query_aws_api [mkFilter "private-dns-name" [name]] (Some c)).
Proof.
  intros H1 H2 Hip. split; intros Hd.
  - assert (Hk : identifier_type_of name = ret "dns-name"%string).
    { now rewrite (identifier_type_of_not_ip _ Hip), Hd. }
    assert (Hr : query_instance name (Some c) =
                 _query_aws_api [mkFilter "dns-name" [name]] (Some c)).
    { now rewrite (query_instance_classified _ _ H1 H2), Hk, bind_ret_l. }
    repeat split; auto. rewrite Hr. apply query_aws_api_queries.
  - assert (Hn : PyStr.endswith name "compute.amazonaws.com" = false).
    { destruct (PyStr.endswith name "compute.amazonaws.com") eqn:E; [|reflexivity].
      apply PyStrFacts.endswith_public_not_internal in E. congruence. }
    assert (Hk : identifier_type_of name = ret "private-dns-name"%string).
    { now rewrite (identifier_type_of_not_ip _ Hip), Hn, Hd. }
    assert (Hr : query_instance name (Some c) =
                 _query_aws_api [mkFilter "private-dns-name" [name]] (Some c)).
    { now rewrite (query_instance_classified _ _ H1 H2), Hk, bind_ret_l. }
    repeat split; auto. rewrite Hr. apply query_aws_api_queries.
Qed.

End ResolverFacts.

(** ** Selection among the enumerated instances *)

(** C6 (amended): for a query that the provider answers, the result is the
    identifier of the last enumerated instance that has a non-empty
    identifier, whatever precedes it; it is absent, without an error, when no
    enumerated instance has one; and when every enumerated instance has one,
    it is the identifier of the last instance enumerated. *)
Theorem last_identified_instance_wins
    (fs : list Filter) (c : EC2) (l : list Instance) :
  instances_filter c (fs ++ [running_filter]) = Return l ->
  (forall l1 i l2,
      l = l1 ++ i :: l2 ->
      truthy (instance_id i) = true ->
      unidentified l2 ->
      result (_query_aws_api fs (Some c)) = Return (instance_id i))
  /\ (unidentified l -> result (_query_aws_api fs (Some c)) = Return None)
  /\ (forall d,
         l <> [] ->
         Forall (fun i => truthy (instance_id i) = true) l ->
         result (_query_aws_api fs (Some c)) = Return (instance_id (last l d))).
Proof.
  intros Hl. rewrite query_aws_api_run, Hl. unfold result. simpl.
  split; [|split].
  - intros l1 i l2 -> Hi H2. f_equal. now apply select_fold_last.
  - intros Hu. f_equal. now apply select_fold_skip.
  - intros d Hne Hall. f_equal.
    destruct (exists_last Hne) as (l' & i & ->).
    rewrite last_last. apply select_fold_last; [|constructor].
    apply Forall_app in Hall as [_ Hi]. now inversion Hi.
Qed.

(** C10: whenever the executor returns, the value is never the empty string:
    it is absent, every enumerated instance having been skipped for want of
    an identifier, or it is the non-empty identifier of the last enumerated
    instance that has one. *)
Theorem selected_identifier_never_empty
    (fs : list Filter) (ec2 : option EC2) (v : option string) :
  result (_query_aws_api fs ec2) = Return v ->
  v <> Some ""%string
  /\ exists c l,
       ec2 = Some c
       /\ instances_filter c (fs ++ [running_filter]) = Return l
       /\ ((v = None /\ unidentified l)
           \/ (exists l1 i l2,
                  l = l1 ++ i :: l2
                  /\ truthy (instance_id i) = true
                  /\ unidentified l2
                  /\ v = instance_id i)).
Proof.
  destruct ec2 as [c|]; [|discriminate].
  rewrite query_aws_api_run.
  destruct (instances_filter c (fs ++ [running_filter])) as [l|e] eqn:Hl;
    [|discriminate].
  unfold result. simpl. intros [= <-].
  destruct (select_fold_cases l None) as [[Hu Hr] | (l1 & i & l2 & E & Hi & H2 & Hr)];
    rewrite Hr.
  - split; [discriminate|]. exists c, l. repeat split; auto.
  - split; [now apply truthy_not_empty|].
    exists c, l. repeat split; auto.
    right. now exists l1, i, l2.
Qed.

(** ** The claims on concrete inputs *)

(** C1, at the name [web:server:01]: kind [name], then [ValueError] and no
    query. *)
Lemma name_with_colons_raises_witness :
  DottedQuad.identifier_type_of "web:server:01" = ret "name"%string
  /\ DottedQuad.query_instance "web:server:01" (Some (answering [Some "i-0abc123"%string])) =
     (Raise (ValueError "too many values to unpack (expected 2)"), []).
Proof.
  apply (@name_with_colons_raises
           DottedQuad.ipaddress
           "web:server:01" (answering [Some "i-0abc123"%string]));
    solve [reflexivity | vm_compute; lia].
Defined.

(** C2 fails as stated: a transport error that is not a [ClientError]
    reaches the caller as it is. *)
Lemma botocore_error_not_translated :
  instances_filter (failing (BotoCoreError "EndpointConnectionError"))
    [mkFilter "tag:Name" ["webserver01"%string]; running_filter]
  = Raise (BotoCoreError "EndpointConnectionError")
  /\ DottedQuad.query_instance "webserver01"
       (Some (failing (BotoCoreError "EndpointConnectionError")))
     = (Raise (BotoCoreError "EndpointConnectionError"),
        [[mkFilter "tag:Name" ["webserver01"%string]; running_filter]])
  /\ result (DottedQuad.query_instance "webserver01"
               (Some (failing (BotoCoreError "EndpointConnectionError"))))
     <> Raise AWSConnectionError.
Proof. repeat split. discriminate. Qed.

Lemma provider_error_translation_witness :
  DottedQuad.query_instance "webserver01" (Some (failing (ClientError "AuthFailure")))
  = (Raise AWSConnectionError,
     [[mkFilter "tag:Name" ["webserver01"%string]; running_filter]]).
Proof.
  apply (@provider_error_translation
           DottedQuad.ipaddress
           "webserver01" (failing (ClientError "AuthFailure"))
           [mkFilter "tag:Name" ["webserver01"%string]; running_filter]
           (ClientError "AuthFailure")).
  - left. reflexivity.
  - reflexivity.
Defined.

Lemma running_filter_always_sent_witness :
  In running_filter [mkFilter "private-ip-address" ["10.0.0.5"%string]; running_filter]
  /\ exists f, [mkFilter "private-ip-address" ["10.0.0.5"%string]; running_filter]
               = [f; running_filter].
Proof.
  apply (@running_filter_always_sent
           DottedQuad.ipaddress
           "10.0.0.5" (Some (answering []))).
  left. reflexivity.
Defined.

Lemma instance_id_passthrough_witness :
  DottedQuad.query_instance "i-0abc123" (Some (failing (ClientError "AuthFailure")))
  = (Return (Some "i-0abc123"%string), []).
Proof.
  apply (@instance_id_passthrough
           DottedQuad.ipaddress).
  left. reflexivity.
Defined.

(** C6 fails as stated: the last instance enumerated has an empty
    identifier, and the result is the identifier of the one before it. *)
Lemma last_enumerated_not_selected :
  instances_filter (answering [Some "i-0aaa"; Some ""]%string)
    [mkFilter "tag:Name" ["webserver01"%string]; running_filter]
  = Return [mkInstance (Some "i-0aaa"%string); mkInstance (Some ""%string)]
  /\ DottedQuad.query_instance "webserver01"
       (Some (answering [Some "i-0aaa"; Some ""]%string))
     = (Return (Some "i-0aaa"%string),
        [[mkFilter "tag:Name" ["webserver01"%string]; running_filter]])
  /\ result (DottedQuad.query_instance "webserver01"
               (Some (answering [Some "i-0aaa"; Some ""]%string)))
     <> Return (instance_id
                  (last [mkInstance (Some "i-0aaa"%string); mkInstance (Some ""%string)]
                     (mkInstance None))).
Proof. repeat split. discriminate. Qed.

Lemma last_identified_instance_wins_witness :
  result (_query_aws_api [mkFilter "dns-name" ["a.compute.amazonaws.com"%string]]
            (Some (answering [Some "i-0aaa"; None; Some "i-0bbb"; Some ""]%string)))
  = Return (Some "i-0bbb"%string).
Proof.
  apply (proj1 (last_identified_instance_wins
                  [mkFilter "dns-name" ["a.compute.amazonaws.com"%string]]
                  (answering [Some "i-0aaa"; None; Some "i-0bbb"; Some ""]%string)
                  (List.map mkInstance [Some "i-0aaa"; None; Some "i-0bbb"; Some ""]%string)
                  eq_refl)
           [mkInstance (Some "i-0aaa"%string); mkInstance None]
           (mkInstance (Some "i-0bbb"%string))
           [mkInstance (Some ""%string)]).
  - reflexivity.
  - reflexivity.
  - repeat constructor.
Defined.

Lemma ip_classification_witness :
  (DottedQuad.identifier_type_of "10.0.0.5" = ret "ip-address"%string <-> true = false)
  /\ (DottedQuad.identifier_type_of "10.0.0.5" = ret "private-ip-address"%string
      <-> true = true)
  /\ queries (DottedQuad.query_instance "10.0.0.5" (Some (answering [])))
     = [[mkFilter "private-ip-address" ["10.0.0.5"%string]; running_filter]]
  /\ DottedQuad.query_instance "10.0.0.5" (Some (answering []))
     = _query_aws_api [mkFilter "private-ip-address" ["10.0.0.5"%string]]
         (Some (answering [])).
Proof.
  apply (@ip_classification
           DottedQuad.ipaddress
           "10.0.0.5" (10, 0, 0, 5) (answering []));
    reflexivity.
Defined.

Lemma tag_classification_witness :
  DottedQuad.identifier_type_of "env:prod" = ret "tag"%string
  /\ exists key value,
       "env:prod"%string = (key ++ ":" ++ value)%string
       /\ PyStr.count key ":" = 0 /\ PyStr.count value ":" = 0
       /\ queries (DottedQuad.query_instance "env:prod" (Some (answering [])))
          = [[mkFilter ("tag:" ++ key) [value]; running_filter]]
       /\ DottedQuad.query_instance "env:prod" (Some (answering []))
          = _query_aws_api [mkFilter ("tag:" ++ key) [value]] (Some (answering [])).
Proof.
  apply (@tag_classification
           DottedQuad.ipaddress
           "env:prod" (answering []));
    reflexivity.
Defined.

Lemma dns_classification_witness :
  (DottedQuad.identifier_type_of "ec2-198-51-100-1.compute.amazonaws.com"
   = ret "dns-name"%string
   /\ queries (DottedQuad.query_instance "ec2-198-51-100-1.compute.amazonaws.com"
                 (Some (answering [])))
      = [[mkFilter "dns-name" ["ec2-198-51-100-1.compute.amazonaws.com"%string];
          running_filter]]
   /\ DottedQuad.query_instance "ec2-198-51-100-1.compute.amazonaws.com"
        (Some (answering []))
      = _query_aws_api
          [mkFilter "dns-name" ["ec2-198-51-100-1.compute.amazonaws.com"%string]]
          (Some (answering [])))
  /\ (DottedQuad.identifier_type_of "ip-10-0-0-5.eu-west-1.compute.internal"
      = ret "private-dns-name"%string
      /\ queries (DottedQuad.query_instance "ip-10-0-0-5.eu-west-1.compute.internal"
                    (Some (answering [])))
         = [[mkFilter "private-dns-name" ["ip-10-0-0-5.eu-west-1.compute.internal"%string];
             running_filter]]
      /\ DottedQuad.query_instance "ip-10-0-0-5.eu-west-1.compute.internal"
           (Some (answering []))
         = _query_aws_api
             [mkFilter "private-dns-name"
                ["ip-10-0-0-5.eu-west-1.compute.internal"%string]]
             (Some (answering []))).
Proof.
  split.
  - apply (proj1 (@dns_classification
                    DottedQuad.ipaddress
                    "ec2-198-51-100-1.compute.amazonaws.com" (answering [])
                    eq_refl eq_refl eq_refl)).
    reflexivity.
  - apply (proj2 (@dns_classification
                    DottedQuad.ipaddress
                    "ip-10-0-0-5.eu-west-1.compute.internal" (answering [])
                    eq_refl eq_refl eq_refl)).
    reflexivity.
Defined.

Lemma selected_identifier_never_empty_witness :
  Some "i-0aaa"%string <> Some ""%string
  /\ exists c l,
       Some (answering [Some "i-0aaa"; Some ""]%string) = Some c
       /\ instances_filter c ([mkFilter "ip-address" ["198.51.100.1"%string]]
                              ++ [running_filter]) = Return l
       /\ ((Some "i-0aaa"%string = None /\ unidentified l)
           \/ (exists l1 i l2,
                  l = l1 ++ i :: l2
                  /\ truthy (instance_id i) = true
                  /\ unidentified l2
                  /\ Some "i-0aaa"%string = instance_id i)).
Proof.
  apply (selected_identifier_never_empty
           [mkFilter "ip-address" ["198.51.100.1"%string]]
           (Some (answering [Some "i-0aaa"; Some ""]%string))
           (Some "i-0aaa"%string)).
  reflexivity.
Defined.

(** ** Further properties of the resolver and of its handlers *)

(** An exception of the executor is the translation of a [ClientError] or
    an exception of another class that the query itself raised. *)
Lemma query_aws_api_raises (fs : list Filter) (c : EC2) (e : exn) :
  result (_query_aws_api fs (Some c)) = Raise e ->
  (exists code,
      instances_filter c (fs ++ [running_filter]) = Raise (ClientError code)
      /\ e = AWSConnectionError)
  \/ (instances_filter c (fs ++ [running_filter]) = Raise e
      /\ isinstance_ClientError e = false).
Proof.
  rewrite query_aws_api_run.
  destruct (instances_filter c (fs ++ [running_filter])) as [l|e0]; [discriminate|].
  unfold result. simpl. intros [= <-].
  destruct (isinstance_ClientError e0) eqn:Hc.
  - left. destruct e0; try discriminate. now exists code.
  - now right.
Qed.

(** An identifier that the executor returns is not empty and is the
    identifier of an instance that the query enumerated. *)
Lemma query_aws_api_returns (fs : list Filter) (c : EC2) (s : string) :
  result (_query_aws_api fs (Some c)) = Return (Some s) ->
  s <> ""%string
  /\ exists l,
       instances_filter c (fs ++ [running_filter]) = Return l
       /\ In (mkInstance (Some s)) l.
Proof.
  rewrite query_aws_api_run.
  destruct (instances_filter c (fs ++ [running_filter])) as [l|e]; [|discriminate].
  unfold result. simpl. intros [= H].
  destruct (select_fold_cases l None) as [[_ Hr] | (l1 & i & l2 & -> & Hi & _ & Hr)];
    rewrite Hr in H; [discriminate|].
  destruct i as [v]. simpl in *. subst v. split.
  - intros ->. discriminate Hi.
  - eexists. split; [reflexivity|]. apply in_elt.
Qed.

Lemma prefixed_not_empty (name : string) :
  PyStr.startswith name "id-" || PyStr.startswith name "i-" = true ->
  name <> ""%string.
Proof. intros H ->. discriminate H. Qed.

Section ResolverRuns.

Context {ipaddress : IPAddressModule}.

(** A run with a handle on a string without the identifier prefixes, branch
    by branch. *)
Lemma query_instance_branches (name : string) (c : EC2) :
  PyStr.startswith name "id-" = false ->
  PyStr.startswith name "i-" = false ->
  query_instance name (Some c) =
  match ip_address name with
  | Some a =>
      _query_aws_api
        [mkFilter (if is_private a then "private-ip-address" else "ip-address") [name]]
        (Some c)
  | None =>
      if PyStr.endswith name "compute.amazonaws.com"
      then _query_aws_api [mkFilter "dns-name" [name]] (Some c)
      else if PyStr.endswith name "compute.internal"
      then _query_aws_api [mkFilter "private-dns-name" [name]] (Some c)
      else if Nat.eqb (PyStr.count name ":") 1
      then getinstanceidbytag name (Some c)
      else getinstanceidbyinstancename name (Some c)
  end.
Proof.
  intros H1 H2. rewrite (query_instance_classified _ _ H1 H2).
  destruct (ip_address name) as [a|] eqn:H.
  - rewrite (identifier_type_of_ip _ _ H), bind_ret_l. now destruct (is_private a).
  - rewrite (identifier_type_of_not_ip _ H), bind_ret_l.
    now repeat match goal with |- context [if ?b then _ else _] => destruct b end.
Qed.

Lemma query_instance_prefixed (name : string) (c : EC2) :
  PyStr.startswith name "id-" || PyStr.startswith name "i-" = true ->
  query_instance name (Some c) = (Return (Some name), []).
Proof. intros H. unfold query_instance. now rewrite H. Qed.

(** X1: whatever the string and the handle, a run sends at most one query:
    nothing is retried and nothing is asked twice. *)
Theorem at_most_one_query (name : string) (ec2 : option EC2) :
  List.length (queries (query_instance name ec2)) <= 1.
Proof.
  destruct ec2 as [c|]; [|simpl; lia].
  destruct (query_instance_shape name c) as [E | [[f E] | [msg E]]]; rewrite E.
  - simpl. lia.
  - rewrite query_aws_api_queries. simpl. lia.
  - simpl. lia.
Qed.

(** X2: with a handle, no query is sent exactly in two situations: the string
    has an identifier prefix, or it reaches the last branch of the
    classification with two or more colons. *)
Theorem no_query_iff (name : string) (c : EC2) :
  queries (query_instance name (Some c)) = []
  <-> (PyStr.startswith name "id-" || PyStr.startswith name "i-" = true
       \/ (ip_address name = None
           /\ PyStr.endswith name "compute.amazonaws.com" = false
           /\ PyStr.endswith name "compute.internal" = false
           /\ 2 <= PyStr.count name ":")).
Proof.
  destruct (PyStr.startswith name "id-" || PyStr.startswith name "i-") eqn:Hp.
  - rewrite (query_instance_prefixed _ _ Hp). split; [now left | reflexivity].
  - apply orb_false_elim in Hp as [H1 H2].
    rewrite (query_instance_branches _ _ H1 H2).
    destruct (ip_address name) as [a|] eqn:Hip.
    { rewrite query_aws_api_queries.
      split; [discriminate | intros [? | [? _]]; discriminate]. }
    destruct (PyStr.endswith name "compute.amazonaws.com") eqn:Hd1.
    { rewrite query_aws_api_queries.
      split; [discriminate | intros [? | (_ & ? & _)]; discriminate]. }
    destruct (PyStr.endswith name "compute.internal") eqn:Hd2.
    { rewrite query_aws_api_queries.
      split; [discriminate | intros [? | (_ & _ & ? & _)]; discriminate]. }
    destruct (Nat.eqb_spec (PyStr.count name ":") 1) as [Hc | Hc].
    { destruct (getinstanceidbytag_one_colon name (Some c) Hc)
        as (k & v & _ & _ & _ & ->).
      rewrite query_aws_api_queries.
      split; [discriminate | intros [? | (_ & _ & _ & ?)]; [discriminate | lia]]. }
    destruct (PyStr.count name ":") as [|n] eqn:Hn.
    + rewrite getinstanceidbyinstancename_no_colon by assumption.
      rewrite query_aws_api_queries.
      split; [discriminate | intros [? | (_ & _ & _ & ?)]; [discriminate | lia]].
    + rewrite getinstanceidbyinstancename_colons by lia.
      split; [|reflexivity]. intros _. right. repeat split; auto. lia.
Qed.

(** X3: where an exception of a run comes from.  It is a [ValueError] raised
    before any query; or the one query sent raised a [ClientError] and the
    run raises [AWSConnectionError]; or the one query sent raised an
    exception of another class and the run raises that very exception. *)
Theorem raised_exception_origin (name : string) (ec2 : option EC2) (e : exn) :
  result (query_instance name ec2) = Raise e ->
  (exists msg, e = ValueError msg /\ queries (query_instance name ec2) = [])
  \/ (exists c q code,
         ec2 = Some c /\ queries (query_instance name ec2) = [q]
         /\ instances_filter c q = Raise (ClientError code)
         /\ e = AWSConnectionError)
  \/ (exists c q,
         ec2 = Some c /\ queries (query_instance name ec2) = [q]
         /\ instances_filter c q = Raise e
         /\ isinstance_ClientError e = false).
Proof.
  destruct ec2 as [c|].
  2:{ intros [= <-]. left. now eexists. }
  destruct (query_instance_shape name c) as [E | [[f E] | [msg E]]]; rewrite E.
  - discriminate.
  - intros H. right. rewrite query_aws_api_queries.
    destruct (query_aws_api_raises _ _ _ H) as [(code & Hq & ->) | [Hq Hc]].
    + left. now exists c, ([f] ++ [running_filter]), code.
    + right. now exists c, ([f] ++ [running_filter]).
  - intros [= <-]. left. now eexists.
Qed.

(** X4: a run never ends in a botocore [ClientError]: a caller has no use
    for an [except] clause on that class. *)
Theorem client_error_never_escapes (name : string) (ec2 : option EC2) (e : exn) :
  result (query_instance name ec2) = Raise e ->
  isinstance_ClientError e = false.
Proof.
  destruct ec2 as [c|]; [|now intros [= <-]].
  destruct (query_instance_shape name c) as [E | [[f E] | [msg E]]]; rewrite E.
  - discriminate.
  - intros H.
    destruct (query_aws_api_raises _ _ _ H) as [(code & _ & ->) | [_ Hc]]; auto.
  - now intros [= <-].
Qed.

(** A run with a handle on a string without the identifier prefixes is one
    run of the executor or a [ValueError] without a query. *)
Lemma query_instance_unprefixed (name : string) (c : EC2) :
  PyStr.startswith name "id-" || PyStr.startswith name "i-" = false ->
  (exists f, query_instance name (Some c) = _query_aws_api [f] (Some c))
  \/ (exists msg, query_instance name (Some c) = (Raise (ValueError msg), [])).
Proof.
  intros Hp. apply orb_false_elim in Hp as [H1 H2].
  rewrite (query_instance_branches _ _ H1 H2).
  destruct (ip_address name) as [a|]; [left; now eexists|].
  destruct (PyStr.endswith name "compute.amazonaws.com"); [left; now eexists|].
  destruct (PyStr.endswith name "compute.internal"); [left; now eexists|].
  destruct (Nat.eqb_spec (PyStr.count name ":") 1) as [Hc | Hc].
  - destruct (getinstanceidbytag_one_colon name (Some c) Hc)
      as (k & v & _ & _ & _ & ->).
    left. now eexists.
  - destruct (PyStr.count name ":") as [|n] eqn:Hn.
    + left. eexists. now apply getinstanceidbyinstancename_no_colon.
    + right. eexists. apply getinstanceidbyinstancename_colons. lia.
Qed.

(** X5: where a returned identifier comes from.  It is never empty, and it
    is either the string itself, returned for its prefix without a query, or
    the identifier of an instance that the one query sent enumerated. *)
Theorem returned_identifier_origin (name : string) (ec2 : option EC2) (s : string) :
  result (query_instance name ec2) = Return (Some s) ->
  s <> ""%string
  /\ ((s = name
       /\ queries (query_instance name ec2) = []
       /\ PyStr.startswith name "id-" || PyStr.startswith name "i-" = true)
      \/ (exists c q l,
             ec2 = Some c
             /\ queries (query_instance name ec2) = [q]
             /\ instances_filter c q = Return l
             /\ In (mkInstance (Some s)) l)).
Proof.
  destruct ec2 as [c|]; [|discriminate].
  destruct (PyStr.startswith name "id-" || PyStr.startswith name "i-") eqn:Hp.
  - rewrite (query_instance_prefixed _ _ Hp). intros [= <-].
    split; [now apply prefixed_not_empty | now left].
  - destruct (query_instance_unprefixed name c Hp) as [[f E] | [msg E]]; rewrite E.
    + intros H. destruct (query_aws_api_returns _ _ _ H) as (Hs & l & Hl & Hin).
      split; [exact Hs|]. right. rewrite query_aws_api_queries.
      now exists c, ([f] ++ [running_filter]), l.
    + discriminate.
Qed.

(** X6: on a string without the identifier prefixes, a run with a handle is
    the run of one handler of [func_dispatcher], the one filed under the
    kind that the classification gives: the lookup never misses. *)
Theorem query_instance_runs_a_handler (name : string) (c : EC2) :
  PyStr.startswith name "id-" = false ->
  PyStr.startswith name "i-" = false ->
  exists kind f,
    identifier_type_of name = ret kind
    /\ func_dispatcher !! kind = Some f
    /\ query_instance name (Some c) = f name (Some c).
Proof.
  intros H1 H2.
  destruct (identifier_type_of_total name) as (k & Hk & [f Hf]).
  exists k, f. split; [exact Hk|]. split; [exact Hf|].
  rewrite (query_instance_classified _ _ H1 H2), Hk, bind_ret_l.
  unfold dispatch.
  match goal with
  | |- match ?x with _ => _ end = _ => replace x with (Some f) by (symmetry; exact Hf)
  end.
  reflexivity.
Qed.

(** X7: what a query can hold.  Its first filter has one of the four fixed
    attributes or an attribute that starts with [tag:], and it has a single
    value, which is the string itself or the end of it. *)
Theorem sent_filter_shape (name : string) (ec2 : option EC2) (q : list Filter) :
  In q (queries (query_instance name ec2)) ->
  exists attr v,
    q = [mkFilter attr [v]; running_filter]
    /\ PyStr.endswith name v = true
    /\ (In attr ["ip-address"; "private-ip-address"; "dns-name"; "private-dns-name"]%string
        \/ PyStr.startswith attr "tag:" = true).
Proof.
  assert (Hrefl : PyStr.endswith name name = true).
  { apply PyStrFacts.endswith_spec. now exists ""%string. }
  destruct ec2 as [c|]; [|intros []].
  destruct (PyStr.startswith name "id-" || PyStr.startswith name "i-") eqn:Hp.
  { rewrite (query_instance_prefixed _ _ Hp). intros []. }
  apply orb_false_elim in Hp as [H1 H2].
  rewrite (query_instance_branches _ _ H1 H2).
  destruct (ip_address name) as [a|].
  { rewrite query_aws_api_queries. intros [<- | []].
    eexists _, name. repeat split; auto. left.
    destruct (is_private a); simpl; auto. }
  destruct (PyStr.endswith name "compute.amazonaws.com").
  { rewrite query_aws_api_queries. intros [<- | []].
    eexists _, name. repeat split; auto. left. simpl. auto. }
  destruct (PyStr.endswith name "compute.internal").
  { rewrite query_aws_api_queries. intros [<- | []].
    eexists _, name. repeat split; auto. left. simpl. auto. }
  destruct (Nat.eqb_spec (PyStr.count name ":") 1) as [Hc | Hc].
  - destruct (getinstanceidbytag_one_colon name (Some c) Hc)
      as (k & v & Hn & _ & _ & ->).
    rewrite query_aws_api_queries. intros [<- | []].
    exists ("tag:" ++ k)%string, v. repeat split.
    + apply PyStrFacts.endswith_spec. exists (k ++ ":")%string.
      rewrite Hn. clear. induction k as [|a k IH]; [reflexivity|].
      change (String a (k ++ ":" ++ v) = String a ((k ++ ":") ++ v))%string.
      now f_equal.
    + right. apply PyStrFacts.startswith_spec. now exists k.
  - destruct (PyStr.count name ":") as [|n] eqn:Hn.
    + rewrite getinstanceidbyinstancename_no_colon by assumption.
      rewrite query_aws_api_queries. intros [<- | []].
      exists "tag:Name"%string, name. repeat split; auto.
    + rewrite getinstanceidbyinstancename_colons by lia. intros [].
Qed.

(** X11: the classification is total: for every string it yields, without
    raising and without a query, one of the six kinds filed in
    [func_dispatcher]; the second parse of the address cannot fail. *)
Theorem classification_total (name : string) :
  exists kind,
    identifier_type_of name = ret kind
    /\ In kind ["ip-address"; "private-ip-address"; "dns-name"; "private-dns-name";
                "tag"; "name"]%string.
Proof.
  destruct (ip_address name) as [a|] eqn:H.
  - rewrite (identifier_type_of_ip _ _ H).
    destruct (is_private a); eexists; (split; [reflexivity | simpl; auto]).
  - rewrite (identifier_type_of_not_ip _ H).
    repeat match goal with |- context [if ?b then _ else _] => destruct b end;
      eexists; (split; [reflexivity | simpl; auto 7]).
Qed.

End ResolverRuns.

(** ** The handlers called on their own *)

(** X8: [getinstanceidbytag] raises [ValueError] before any query exactly
    when its argument has not exactly one colon: none (too few values to
    unpack) or several (too many). *)
Theorem tag_handler_value_error (name : string) (ec2 : option EC2) :
  (exists msg, getinstanceidbytag name ec2 = (Raise (ValueError msg), []))
  <-> PyStr.count name ":" <> 1.
Proof.
  split.
  - intros [msg H] Hc.
    destruct (getinstanceidbytag_one_colon name ec2 Hc) as (k & v & _ & _ & _ & E).
    rewrite E in H. destruct ec2 as [c|].
    + apply (f_equal snd) in H.
      change (queries (_query_aws_api [mkFilter ("tag:" ++ k) [v]] (Some c)) = []) in H.
      rewrite query_aws_api_queries in H. discriminate H.
    + rewrite query_aws_api_None in H. discriminate H.
  - intros Hc. unfold getinstanceidbytag.
    pose proof (PyStrFacts.split_length name ":") as Hl.
    destruct (PyStr.split name ":") as [|k [|v [|w t]]]; simpl in Hl.
    + now eexists.
    + now eexists.
    + exfalso. apply Hc. lia.
    + now eexists.
Qed.

(** X9: the default [ec2=None] of the handlers is of no use: on a [None]
    handle each of the six raises, an [AttributeError] or the [ValueError]
    of the unpacking, and sends nothing. *)
Theorem handler_without_handle (kind : string) (f : handler) (name : string) :
  func_dispatcher !! kind = Some f ->
  exists e,
    f name None = (Raise e, [])
    /\ ((exists msg, e = AttributeError msg) \/ (exists msg, e = ValueError msg)).
Proof.
  assert (Htag : forall n, exists e,
             getinstanceidbytag n None = (Raise e, [])
             /\ ((exists msg, e = AttributeError msg) \/ (exists msg, e = ValueError msg))).
  { intros n. unfold getinstanceidbytag.
    destruct (PyStr.split n ":") as [|k [|v [|w t]]];
      eexists; (split; [reflexivity|]); (left + right); now eexists. }
  unfold func_dispatcher. intros Hk.
  repeat (apply lookup_insert_Some in Hk as [[_ <-] | [_ Hk]];
          [try (eexists; (split; [reflexivity|]); left; now eexists) | ]);
    [apply Htag | apply lookup_singleton_Some in Hk as [_ <-]; apply Htag].
Qed.

(** X10: each of the six handlers, called on its own with any string and any
    handle, sends at most one query, and a query it sends is one filter
    followed by the running-state filter. *)
Theorem handler_sends_one_running_query
    (kind : string) (f : handler) (name : string) (ec2 : option EC2) :
  func_dispatcher !! kind = Some f ->
  List.length (queries (f name ec2)) <= 1
  /\ forall q, In q (queries (f name ec2)) -> exists flt, q = [flt; running_filter].
Proof.
  intros Hk. split; [|intros q; now apply (handler_queries kind)].
  assert (Hq : forall fs, List.length (queries (_query_aws_api fs ec2)) <= 1).
  { intros fs. destruct ec2 as [c|]; [rewrite query_aws_api_queries|]; simpl; lia. }
  assert (Htag : forall n, List.length (queries (getinstanceidbytag n ec2)) <= 1).
  { intros n. unfold getinstanceidbytag.
    destruct (PyStr.split n ":") as [|k [|v [|w t]]]; try (simpl; lia).
    unfold unpack2. rewrite bind_ret_l. apply Hq. }
  revert Hk. unfold func_dispatcher. intros Hk.
  repeat (apply lookup_insert_Some in Hk as [[_ <-] | [_ Hk]]; [try apply Hq | ]);
    [apply Htag | apply lookup_singleton_Some in Hk as [_ <-]; apply Htag].
Qed.

(** ** The further properties on concrete inputs *)

Lemma raised_exception_origin_witness :
  (exists msg,
      AWSConnectionError = ValueError msg
      /\ queries (DottedQuad.query_instance "webserver01"
                    (Some (failing (ClientError "AuthFailure")))) = [])
  \/ (exists c q code,
         Some (failing (ClientError "AuthFailure")) = Some c
         /\ queries (DottedQuad.query_instance "webserver01"
                       (Some (failing (ClientError "AuthFailure")))) = [q]
         /\ instances_filter c q = Raise (ClientError code)
         /\ AWSConnectionError = AWSConnectionError)
  \/ (exists c q,
         Some (failing (ClientError "AuthFailure")) = Some c
         /\ queries (DottedQuad.query_instance "webserver01"
                       (Some (failing (ClientError "AuthFailure")))) = [q]
         /\ instances_filter c q = Raise AWSConnectionError
         /\ isinstance_ClientError AWSConnectionError = false).
Proof.
  apply (@raised_exception_origin
           DottedQuad.ipaddress "webserver01"
           (Some (failing (ClientError "AuthFailure"))) AWSConnectionError).
  reflexivity.
Defined.

Lemma client_error_never_escapes_witness :
  isinstance_ClientError (BotoCoreError "EndpointConnectionError") = false.
Proof.
  apply (@client_error_never_escapes
           DottedQuad.ipaddress "ec2-198-51-100-1.compute.amazonaws.com"
           (Some (failing (BotoCoreError "EndpointConnectionError")))
           (BotoCoreError "EndpointConnectionError")).
  reflexivity.
Defined.

Lemma returned_identifier_origin_witness :
  "i-0aaa"%string <> ""%string
  /\ (("i-0aaa"%string = "10.0.0.5"%string
       /\ queries (DottedQuad.query_instance "10.0.0.5"
                     (Some (answering [Some "i-0aaa"; Some ""]%string))) = []
       /\ PyStr.startswith "10.0.0.5" "id-" || PyStr.startswith "10.0.0.5" "i-" = true)
      \/ (exists c q l,
             Some (answering [Some "i-0aaa"; Some ""]%string) = Some c
             /\ queries (DottedQuad.query_instance "10.0.0.5"
                           (Some (answering [Some "i-0aaa"; Some ""]%string))) = [q]
             /\ instances_filter c q = Return l
             /\ In (mkInstance (Some "i-0aaa"%string)) l)).
Proof.
  apply (@returned_identifier_origin
           DottedQuad.ipaddress "10.0.0.5"
           (Some (answering [Some "i-0aaa"; Some ""]%string)) "i-0aaa").
  reflexivity.
Defined.

Lemma query_instance_runs_a_handler_witness :
  exists kind f,
    DottedQuad.identifier_type_of "env:prod" = ret kind
    /\ func_dispatcher !! kind = Some f
    /\ DottedQuad.query_instance "env:prod" (Some (answering []))
       = f "env:prod"%string (Some (answering [])).
Proof.
  apply (@query_instance_runs_a_handler
           DottedQuad.ipaddress "env:prod" (answering []));
    reflexivity.
Defined.

Lemma sent_filter_shape_witness :
  exists attr v,
    [mkFilter "tag:env" ["prod"%string]; running_filter]
    = [mkFilter attr [v]; running_filter]
    /\ PyStr.endswith "env:prod" v = true
    /\ (In attr ["ip-address"; "private-ip-address"; "dns-name"; "private-dns-name"]%string
        \/ PyStr.startswith attr "tag:" = true).
Proof.
  apply (@sent_filter_shape
           DottedQuad.ipaddress "env:prod" (Some (answering []))).
  left. reflexivity.
Defined.

Lemma handler_without_handle_witness :
  exists e,
    getinstanceidbydnsname "ec2-198-51-100-1.compute.amazonaws.com" None = (Raise e, [])
    /\ ((exists msg, e = AttributeError msg) \/ (exists msg, e = ValueError msg)).
Proof.
  apply (handler_without_handle "dns-name" getinstanceidbydnsname).
  reflexivity.
Defined.

Lemma handler_sends_one_running_query_witness :
  List.length (queries (getinstanceidbytag "env:prod" (Some (answering [])))) <= 1
  /\ forall q,
       In q (queries (getinstanceidbytag "env:prod" (Some (answering [])))) ->
       exists flt, q = [flt; running_filter].
Proof.
  apply (handler_sends_one_running_query "tag" getinstanceidbytag).
  reflexivity.
Defined.
